(** * The XNNPACK delegate backend: lifecycle protocol

    A shallow embedding of [backends/xnnpack/runtime/XNNPACKBackend.cpp]:
    the class [XnnpackBackend] (constructor, [is_available], [init],
    [execute], [destroy]) and the static registration at the end of the
    translation unit.

    The adapter talks to collaborators that live in other files (the
    XNNPACK library, the runtime allocator, [XNNCompiler], [XNNExecutor],
    [FreeableBuffer], the backend registry).  They are kept abstract: a
    record of functions over an arbitrary state [X].  Every call the
    adapter makes on a collaborator is recorded, in program order, in a
    list of events, so that statements such as "the destructor runs once"
    or "the compiler is not called" are statements about that list. *)

From Stdlib Require Import List String NArith Bool Arith Lia.
Import ListNotations.

Local Open Scope string_scope.
Local Open Scope list_scope.
Local Open Scope N_scope.

(** ** Plain data *)

(** Addresses.  [nullptr] is address 0. *)
Definition ptr := N.
Definition nullptr : ptr := 0.

(** [xnn_workspace_t] is a pointer type of the XNNPACK library. *)
Definition xnn_workspace_t := ptr.

(** [enum xnn_status] of xnnpack.h.  The adapter only ever compares a
    status with [xnn_status_success]. *)
Inductive xnn_status :=
| xnn_status_success
| xnn_status_uninitialized
| xnn_status_invalid_parameter
| xnn_status_invalid_state
| xnn_status_unsupported_parameter
| xnn_status_unsupported_hardware
| xnn_status_out_of_memory.

Definition xnn_status_eqb (a b : xnn_status) : bool :=
  match a, b with
  | xnn_status_success, xnn_status_success
  | xnn_status_uninitialized, xnn_status_uninitialized
  | xnn_status_invalid_parameter, xnn_status_invalid_parameter
  | xnn_status_invalid_state, xnn_status_invalid_state
  | xnn_status_unsupported_parameter, xnn_status_unsupported_parameter
  | xnn_status_unsupported_hardware, xnn_status_unsupported_hardware
  | xnn_status_out_of_memory, xnn_status_out_of_memory => true
  | _, _ => false
  end.

(** [enum class Error] of runtime/core/error.h.  This file names [Ok] and
    [Internal]; the others reach it only as values returned by
    collaborators. *)
Inductive Error :=
| Ok
| Internal
| InvalidState
| EndOfMethod
| NotSupported
| NotImplemented
| InvalidArgument
| InvalidType
| NotFound
| MemoryAllocationFailed
| AccessFailed
| DelegateInvalidCompatibility
| DelegateMemoryAllocationFailed
| DelegateInvalidHandle.

Definition Error_eqb (a b : Error) : bool :=
  match a, b with
  | Ok, Ok | Internal, Internal | InvalidState, InvalidState
  | EndOfMethod, EndOfMethod | NotSupported, NotSupported
  | NotImplemented, NotImplemented | InvalidArgument, InvalidArgument
  | InvalidType, InvalidType | NotFound, NotFound
  | MemoryAllocationFailed, MemoryAllocationFailed
  | AccessFailed, AccessFailed
  | DelegateInvalidCompatibility, DelegateInvalidCompatibility
  | DelegateMemoryAllocationFailed, DelegateMemoryAllocationFailed
  | DelegateInvalidHandle, DelegateInvalidHandle => true
  | _, _ => false
  end.

(** [Result<T>]: a value or an error.  [return err;] in a function that
    returns [Result<T>] builds [Failure err]; [return executor;] builds
    [Value executor]. *)
Inductive Result (T : Type) :=
| Value (v : T)
| Failure (e : Error).
Arguments Value {T} v.
Arguments Failure {T} e.

Definition succeeded {T} (r : Result T) : bool :=
  match r with Value _ => true | Failure _ => false end.

(** [CompileSpec]: a key and a value buffer.  [init] receives an array of
    them and does not look at it. *)
Record CompileSpec := { key : string; value : list N }.

(** [BackendInitContext]: holds the runtime allocator of the method being
    loaded. *)
Record BackendInitContext := { get_runtime_allocator : ptr }.

(** The one static adapter object of the translation unit; [&cls] is
    [addr_cls]. *)
Inductive StaticObject := addr_cls.

(** [struct Backend { const char* name_; PyTorchBackendInterface* interface_; }] *)
Record Backend := { name_ : string; interface_ : StaticObject }.

(** The class has a single data member. *)
Record XnnpackBackend := { workspace_ : xnn_workspace_t }.

(** ** Events *)

Inductive LogLevel := LogDebug | LogInfo | LogError | LogFatal.

Inductive LogArg :=
| ArgNone
| ArgStatus (s : xnn_status)
| ArgError (e : Error)
| ArgPtr (p : ptr).

Inductive Event :=
| EvXnnInitialize (allocator : ptr)
| EvXnnCreateWorkspace
| EvLog (level : LogLevel) (format : string) (arg : LogArg)
| EvAllocate (allocator : ptr)
| EvPlacementNew (executor : ptr)
| EvCompileModel (data : ptr) (size : N) (executor : ptr)
                 (allocator : ptr) (workspace : xnn_workspace_t)
| EvFree (processed : ptr)
| EvDestructor (executor : ptr)
| EvPrepareArgs (executor : ptr) (args : ptr)
| EvForward (executor : ptr) (context : ptr)
| EvResizeOutputs (executor : ptr) (args : ptr)
| EvPrintAvgOpTimings (executor : ptr)
| EvRegisterBackend (b : Backend).

Definition is_free (processed : ptr) (e : Event) : bool :=
  match e with EvFree p => p =? processed | _ => false end.

Definition is_destructor (executor : ptr) (e : Event) : bool :=
  match e with EvDestructor p => p =? executor | _ => false end.

Definition is_placement_new (executor : ptr) (e : Event) : bool :=
  match e with EvPlacementNew p => p =? executor | _ => false end.

Definition is_compile (e : Event) : bool :=
  match e with EvCompileModel _ _ _ _ _ => true | _ => false end.

Definition is_register (e : Event) : bool :=
  match e with EvRegisterBackend _ => true | _ => false end.

Definition is_create_workspace (e : Event) : bool :=
  match e with EvXnnCreateWorkspace => true | _ => false end.

Definition is_initialize (e : Event) : bool :=
  match e with EvXnnInitialize _ => true | _ => false end.

Definition is_allocate (e : Event) : bool :=
  match e with EvAllocate _ => true | _ => false end.

(** The calls that only the constructor and the static initialisers make. *)
Definition is_load_time (e : Event) : bool :=
  match e with
  | EvXnnCreateWorkspace | EvRegisterBackend _ => true
  | _ => false
  end.

(** What a method called on an adapter whose workspace is [ws] may do: no
    load-time call, and the compiler only against [ws]. *)
Definition call_event (ws : xnn_workspace_t) (e : Event) : Prop :=
  match e with
  | EvXnnCreateWorkspace | EvRegisterBackend _ => False
  | EvCompileModel _ _ _ _ w => w = ws
  | _ => True
  end.

(** The handle at [executor] was compiled against workspace [ws]. *)
Definition bound_to (ws : xnn_workspace_t) (executor : ptr)
    (l : list Event) : Prop :=
  exists data size allocator,
    In (EvCompileModel data size executor allocator ws) l.

(** How many events of a list satisfy [p]. *)
Definition count (p : Event -> bool) (l : list Event) : nat :=
  List.length (filter p l).

(** ** Collaborators *)

(** Everything the adapter calls but does not define.  Each function takes
    the collaborators' state and returns the new one; what they answer may
    depend on everything that happened before.

    - [xnn_create_workspace old] receives the content of the slot it is
      pointed at and returns the status and the slot's new content.
    - [allocate a] is [a->allocate(sizeof(XNNExecutor), alignof(XNNExecutor))];
      it answers [nullptr] when the arena is exhausted.
    - [alloc_failure] is the error that [ET_ALLOCATE_INSTANCE_OR_RETURN_ERROR]
      returns when the allocation answers [nullptr]; the macro is defined in
      runtime/core/memory_allocator.h.
    - [ENABLE_XNNPACK_PROFILING] is the preprocessor switch of [destroy]. *)
Record Collaborators (X : Type) := {
  xnn_initialize : ptr -> X -> xnn_status * X;
  xnn_create_workspace :
    xnn_workspace_t -> X -> (xnn_status * xnn_workspace_t) * X;
  allocate : ptr -> X -> ptr * X;
  alloc_failure : Error;
  XNNExecutor_new : ptr -> X -> X;
  XNNExecutor_delete : ptr -> X -> X;
  FreeableBuffer_data : ptr -> X -> ptr;
  FreeableBuffer_size : ptr -> X -> N;
  FreeableBuffer_Free : ptr -> X -> X;
  compileModel :
    ptr -> N -> ptr -> ptr -> xnn_workspace_t -> X -> Error * X;
  prepare_args : ptr -> ptr -> X -> Error * X;
  forward : ptr -> ptr -> X -> Error * X;
  resize_outputs : ptr -> ptr -> X -> Error * X;
  print_avg_op_timings : ptr -> X -> X;
  register_backend : Backend -> X -> Error * X;
  ENABLE_XNNPACK_PROFILING : bool
}.

Arguments xnn_initialize {X}.
Arguments xnn_create_workspace {X}.
Arguments allocate {X}.
Arguments alloc_failure {X}.
Arguments XNNExecutor_new {X}.
Arguments XNNExecutor_delete {X}.
Arguments FreeableBuffer_data {X}.
Arguments FreeableBuffer_size {X}.
Arguments FreeableBuffer_Free {X}.
Arguments compileModel {X}.
Arguments prepare_args {X}.
Arguments forward {X}.
Arguments resize_outputs {X}.
Arguments print_avg_op_timings {X}.
Arguments register_backend {X}.
Arguments ENABLE_XNNPACK_PROFILING {X}.

(** ** The monad of calls: state of the collaborators, plus the events *)

Section Monad.
Context {X : Type}.

Definition M (A : Type) : Type := X -> A * X * list Event.

Definition ret {A} (a : A) : M A := fun x => (a, x, []).

Definition bind {A B} (m : M A) (f : A -> M B) : M B :=
  fun x =>
    let '(a, x1, e1) := m x in
    let '(b, x2, e2) := f a x1 in
    (b, x2, e1 ++ e2).

(** A call that answers a value. *)
Definition call {A} (ev : Event) (f : X -> A * X) : M A :=
  fun x => let '(a, x1) := f x in (a, x1, [ev]).

(** A call that answers nothing. *)
Definition call_void (ev : Event) (f : X -> X) : M unit :=
  fun x => (tt, f x, [ev]).

(** A const accessor. *)
Definition read {A} (f : X -> A) : M A := fun x => (f x, x, []).

(** [ET_LOG]. *)
Definition ET_LOG (level : LogLevel) (format : string) (arg : LogArg)
  : M unit :=
  fun x => (tt, x, [EvLog level format arg]).

Definition result {A} (r : A * X * list Event) : A := fst (fst r).
Definition state {A} (r : A * X * list Event) : X := snd (fst r).
Definition events {A} (r : A * X * list Event) : list Event := snd r.
End Monad.

Arguments M X A : clear implicits.

Declare Scope call_scope.
Delimit Scope call_scope with call.
Notation "x <- m ;; k" := (bind m (fun x => k))
  (at level 61, m at next level, right associativity) : call_scope.
Notation "m ;;; k" := (bind m (fun _ => k))
  (at level 61, right associativity) : call_scope.
Local Open Scope call_scope.

(** ** The class *)

Section Adapter.
Context {X : Type} (env : Collaborators X).

(** *** Macros *)

(** [ET_ALLOCATE_INSTANCE_OR_RETURN_ERROR(allocator, XNNExecutor)]:
    allocate; on [nullptr] return the macro's error from the enclosing
    function; otherwise go on with the address. *)
Definition ET_ALLOCATE_INSTANCE_OR_RETURN_ERROR {T}
    (allocator : ptr) (k : ptr -> M X (Result T)) : M X (Result T) :=
  p <- call (EvAllocate allocator) (allocate env allocator) ;;
  if p =? nullptr then ret (Failure (alloc_failure env)) else k p.

(** [ET_CHECK_OR_RETURN_ERROR(cond, error, message)]: when the condition
    is false, log the message and return the error from the enclosing
    function. *)
Definition ET_CHECK_OR_RETURN_ERROR {T}
    (cond : bool) (error : Error) (message : string)
    (k : M X (Result T)) : M X (Result T) :=
  if cond then k
  else ET_LOG LogError message ArgNone ;;; ret (Failure error).

(** *** Constructor (lines 25-48)

    [slot] is what the storage of [workspace_] holds when the constructor
    starts: the member has no initialiser. *)
Definition XnnpackBackend_new (slot : xnn_workspace_t)
  : M X XnnpackBackend :=
  status <- call (EvXnnInitialize nullptr) (xnn_initialize env nullptr) ;;
  if negb (xnn_status_eqb status xnn_status_success) then
    ET_LOG LogError "Failed to initialize, XNNPACK status: 0x%x"
           (ArgStatus status) ;;;
    ret {| workspace_ := slot |}
  else
    r <- call EvXnnCreateWorkspace (xnn_create_workspace env slot) ;;
    let '(status, ws) := r in
    if negb (xnn_status_eqb status xnn_status_success) then
      ET_LOG LogError "Failed to create XNN workspace, XNNPACK status: 0x%x"
             (ArgStatus status) ;;;
      ret {| workspace_ := nullptr |}
    else
      ET_LOG LogDebug "Created XNN workspace: %p" (ArgPtr ws) ;;;
      ret {| workspace_ := ws |}.

(** *** [is_available] (lines 50-52) *)
Definition is_available (self : XnnpackBackend) : M X bool :=
  status <- call (EvXnnInitialize nullptr) (xnn_initialize env nullptr) ;;
  ret (xnn_status_eqb xnn_status_success status).

(** *** [init] (lines 54-88) *)
Definition init (self : XnnpackBackend) (context : BackendInitContext)
    (processed : ptr) (compile_specs : list CompileSpec)
  : M X (Result ptr) :=
  ET_ALLOCATE_INSTANCE_OR_RETURN_ERROR (get_runtime_allocator context)
    (fun executor =>
  call_void (EvPlacementNew executor) (XNNExecutor_new env executor) ;;;
  ET_CHECK_OR_RETURN_ERROR
    (negb (workspace_ self =? nullptr)) Internal
    "Failed to create XNN workspace" (
  data <- read (FreeableBuffer_data env processed) ;;
  size <- read (FreeableBuffer_size env processed) ;;
  err <- call (EvCompileModel data size executor
                 (get_runtime_allocator context) (workspace_ self))
              (compileModel env data size executor
                 (get_runtime_allocator context) (workspace_ self)) ;;
  call_void (EvFree processed) (FreeableBuffer_Free env processed) ;;;
  if negb (Error_eqb err Ok) then
    call_void (EvDestructor executor) (XNNExecutor_delete env executor) ;;;
    ET_LOG LogError "XNNCompiler::compileModel failed: 0x%x"
           (ArgError err) ;;;
    ret (Failure err)
  else
    ret (Value executor))).

(** *** [execute] (lines 90-112) *)
Definition execute (self : XnnpackBackend) (context : ptr)
    (handle : ptr) (args : ptr) : M X Error :=
  let executor := handle in
  err <- call (EvPrepareArgs executor args)
              (prepare_args env executor args) ;;
  if negb (Error_eqb err Ok) then ret err
  else
    err <- call (EvForward executor context)
                (forward env executor context) ;;
    if negb (Error_eqb err Ok) then ret err
    else
      err <- call (EvResizeOutputs executor args)
                  (resize_outputs env executor args) ;;
      ret err.

(** *** [destroy] (lines 114-124) *)
Definition destroy (self : XnnpackBackend) (handle : ptr) : M X unit :=
  if negb (handle =? nullptr) then
    let executor := handle in
    (if ENABLE_XNNPACK_PROFILING env then
       call_void (EvPrintAvgOpTimings executor)
                 (print_avg_op_timings env executor)
     else ret tt) ;;;
    call_void (EvDestructor executor) (XNNExecutor_delete env executor)
  else ret tt.

(** *** Static registration (lines 142-146)

    [cls] has static storage: its bytes are zero before the constructor
    runs, so the constructor finds [nullptr] in the slot of [workspace_]. *)
Record Globals := {
  cls : XnnpackBackend;
  backend : Backend;
  success_with_compiler : Error
}.

Definition static_initialization : M X Globals :=
  cls <- XnnpackBackend_new nullptr ;;
  let backend := {| name_ := "XnnpackBackend"; interface_ := addr_cls |} in
  success_with_compiler <-
    call (EvRegisterBackend backend) (register_backend env backend) ;;
  ret {| cls := cls;
         backend := backend;
         success_with_compiler := success_with_compiler |}.

(** *** The process after load: the host calls the four methods on [cls] *)

Inductive Call :=
| CallIsAvailable
| CallInit (context : BackendInitContext) (processed : ptr)
           (compile_specs : list CompileSpec)
| CallExecute (context : ptr) (handle : ptr) (args : ptr)
| CallDestroy (handle : ptr).

Inductive Reply :=
| ReplyIsAvailable (b : bool)
| ReplyInit (r : Result ptr)
| ReplyExecute (e : Error)
| ReplyDestroy.

Definition invoke (self : XnnpackBackend) (c : Call) : M X Reply :=
  match c with
  | CallIsAvailable =>
      b <- is_available self ;; ret (ReplyIsAvailable b)
  | CallInit context processed compile_specs =>
      r <- init self context processed compile_specs ;; ret (ReplyInit r)
  | CallExecute context handle args =>
      e <- execute self context handle args ;; ret (ReplyExecute e)
  | CallDestroy handle =>
      destroy self handle ;;; ret ReplyDestroy
  end.

(** The handle of a reply, when it carries one. *)
Definition handle_of (r : Reply) : option ptr :=
  match r with ReplyInit (Value h) => Some h | _ => None end.

(** The statics and the state of the collaborators. *)
Record Process := { globals : Globals; collaborators : X }.

(** One call of the host.  All four methods are [const]: the statics come
    out as they went in. *)
Definition step (p : Process) (c : Call) : Process * Reply * list Event :=
  let '(r, x, evs) := invoke (cls (globals p)) c (collaborators p) in
  ({| globals := globals p; collaborators := x |}, r, evs).

Fixpoint steps (p : Process) (cs : list Call)
  : Process * list Reply * list Event :=
  match cs with
  | [] => (p, [], [])
  | c :: cs =>
      let '(p1, r, e1) := step p c in
      let '(p2, rs, e2) := steps p1 cs in
      (p2, r :: rs, e1 ++ e2)
  end.

(** The process right after the static initialisers ran from state [x]. *)
Definition loaded (x : X) : Process :=
  let r := static_initialization x in
  {| globals := result r; collaborators := state r |}.

(** *** Properties of a single [init] call, as predicates *)

(** [Free] is called on the payload exactly once. *)
Definition payload_released_once (self : XnnpackBackend)
    (context : BackendInitContext) (processed : ptr)
    (compile_specs : list CompileSpec) (x : X) : Prop :=
  count (is_free processed)
        (events (init self context processed compile_specs x)) = 1%nat.

(** The call fails with [Error::Internal]. *)
Definition fails_with_Internal (self : XnnpackBackend)
    (context : BackendInitContext) (processed : ptr)
    (compile_specs : list CompileSpec) (x : X) : Prop :=
  result (init self context processed compile_specs x) = Failure Internal.

(** The compiler is not called. *)
Definition compiler_not_called (self : XnnpackBackend)
    (context : BackendInitContext) (processed : ptr)
    (compile_specs : list CompileSpec) (x : X) : Prop :=
  count is_compile
        (events (init self context processed compile_specs x)) = 0%nat.

(** *** The stages of an [init] call started in state [x] *)

(** The address the allocator answers, and the state it leaves. *)
Definition allocated (context : BackendInitContext) (x : X) : ptr :=
  fst (allocate env (get_runtime_allocator context) x).

Definition after_allocate (context : BackendInitContext) (x : X) : X :=
  snd (allocate env (get_runtime_allocator context) x).

(** The state after the placement new. *)
Definition after_new (context : BackendInitContext) (x : X) : X :=
  XNNExecutor_new env (allocated context x) (after_allocate context x).

(** The call of the compiler as an event, and what it answers. *)
Definition compile_event (self : XnnpackBackend)
    (context : BackendInitContext) (processed : ptr) (x : X) : Event :=
  EvCompileModel (FreeableBuffer_data env processed (after_new context x))
                 (FreeableBuffer_size env processed (after_new context x))
                 (allocated context x) (get_runtime_allocator context)
                 (workspace_ self).

Definition compile_result (self : XnnpackBackend)
    (context : BackendInitContext) (processed : ptr) (x : X) : Error * X :=
  compileModel env
    (FreeableBuffer_data env processed (after_new context x))
    (FreeableBuffer_size env processed (after_new context x))
    (allocated context x) (get_runtime_allocator context)
    (workspace_ self) (after_new context x).

(** The state after the payload was freed. *)
Definition after_free (self : XnnpackBackend)
    (context : BackendInitContext) (processed : ptr) (x : X) : X :=
  FreeableBuffer_Free env processed
    (snd (compile_result self context processed x)).

End Adapter.

Arguments globals {X}.
Arguments collaborators {X}.
Arguments Build_Process {X}.

(** ** Scripted collaborators

    Concrete collaborators whose answers are fixed in advance; their state
    counts the calls received. *)
Record Script := {
  initialize_answer : xnn_status;
  create_workspace_answer : xnn_status * xnn_workspace_t;
  allocate_answer : ptr;
  allocate_error : Error;
  compile_answer : Error;
  prepare_answer : Error;
  forward_answer : Error;
  resize_answer : Error;
  register_answer : Error;
  profiling : bool
}.

Definition scripted (s : Script) : Collaborators nat := {|
  xnn_initialize := fun _ n => (initialize_answer s, S n);
  xnn_create_workspace := fun _ n => (create_workspace_answer s, S n);
  allocate := fun _ n => (allocate_answer s, S n);
  alloc_failure := allocate_error s;
  XNNExecutor_new := fun _ n => S n;
  XNNExecutor_delete := fun _ n => S n;
  FreeableBuffer_data := fun p _ => p + 16;
  FreeableBuffer_size := fun _ _ => 64;
  FreeableBuffer_Free := fun _ n => S n;
  compileModel := fun _ _ _ _ _ n => (compile_answer s, S n);
  prepare_args := fun _ _ n => (prepare_answer s, S n);
  forward := fun _ _ n => (forward_answer s, S n);
  resize_outputs := fun _ _ n => (resize_answer s, S n);
  print_avg_op_timings := fun _ n => S n;
  register_backend := fun _ n => (register_answer s, S n);
  ENABLE_XNNPACK_PROFILING := profiling s
|}.

(** Everything works: the library initialises, the workspace is at address
    4096, the arena answers address 512, the payload compiles. *)
Definition healthy : Script := {|
  initialize_answer := xnn_status_success;
  create_workspace_answer := (xnn_status_success, 4096);
  allocate_answer := 512;
  allocate_error := MemoryAllocationFailed;
  compile_answer := Ok;
  prepare_answer := Ok;
  forward_answer := Ok;
  resize_answer := Ok;
  register_answer := Ok;
  profiling := false
|}.

(** The arena is exhausted. *)
Definition arena_exhausted : Script := {|
  initialize_answer := xnn_status_success;
  create_workspace_answer := (xnn_status_success, 4096);
  allocate_answer := nullptr;
  allocate_error := MemoryAllocationFailed;
  compile_answer := Ok;
  prepare_answer := Ok;
  forward_answer := Ok;
  resize_answer := Ok;
  register_answer := Ok;
  profiling := false
|}.

(** The library initialises but cannot create a workspace. *)
Definition no_workspace : Script := {|
  initialize_answer := xnn_status_success;
  create_workspace_answer := (xnn_status_out_of_memory, 4096);
  allocate_answer := 512;
  allocate_error := MemoryAllocationFailed;
  compile_answer := Ok;
  prepare_answer := Ok;
  forward_answer := Ok;
  resize_answer := Ok;
  register_answer := Ok;
  profiling := false
|}.

(** No workspace and an exhausted arena. *)
Definition no_workspace_arena_exhausted : Script := {|
  initialize_answer := xnn_status_success;
  create_workspace_answer := (xnn_status_out_of_memory, 4096);
  allocate_answer := nullptr;
  allocate_error := MemoryAllocationFailed;
  compile_answer := Ok;
  prepare_answer := Ok;
  forward_answer := Ok;
  resize_answer := Ok;
  register_answer := Ok;
  profiling := false
|}.

(** The library does not initialise on this machine. *)
Definition unsupported_hardware : Script := {|
  initialize_answer := xnn_status_unsupported_hardware;
  create_workspace_answer := (xnn_status_uninitialized, 0);
  allocate_answer := 512;
  allocate_error := MemoryAllocationFailed;
  compile_answer := Ok;
  prepare_answer := Ok;
  forward_answer := Ok;
  resize_answer := Ok;
  register_answer := Ok;
  profiling := false
|}.

(** The payload does not compile. *)
Definition bad_payload : Script := {|
  initialize_answer := xnn_status_success;
  create_workspace_answer := (xnn_status_success, 4096);
  allocate_answer := 512;
  allocate_error := MemoryAllocationFailed;
  compile_answer := InvalidArgument;
  prepare_answer := Ok;
  forward_answer := Ok;
  resize_answer := Ok;
  register_answer := Ok;
  profiling := false
|}.

(** The forward pass fails. *)
Definition forward_fails : Script := {|
  initialize_answer := xnn_status_success;
  create_workspace_answer := (xnn_status_success, 4096);
  allocate_answer := 512;
  allocate_error := MemoryAllocationFailed;
  compile_answer := Ok;
  prepare_answer := Ok;
  forward_answer := Internal;
  resize_answer := Ok;
  register_answer := Ok;
  profiling := true
|}.

(** An init context whose allocator is at address 64, and a payload at
    address 128. *)
Definition a_context : BackendInitContext := {| get_runtime_allocator := 64 |}.
Definition a_payload : ptr := 128.

(** ** Counting over whole sessions *)

(** Placement new, destructor and [Free], on any address. *)
Definition is_construction (e : Event) : bool :=
  match e with EvPlacementNew _ => true | _ => false end.

Definition is_destruction (e : Event) : bool :=
  match e with EvDestructor _ => true | _ => false end.

Definition is_release (e : Event) : bool :=
  match e with EvFree _ => true | _ => false end.

(** Calls of [execute]'s three steps. *)
Definition is_executor_step (e : Event) : bool :=
  match e with
  | EvPrepareArgs _ _ | EvForward _ _ | EvResizeOutputs _ _ => true
  | _ => false
  end.

(** A [destroy] that goes past its null test. *)
Definition destroys_handle (c : Call) : bool :=
  match c with CallDestroy h => negb (h =? nullptr) | _ => false end.

Definition asks_availability (c : Call) : bool :=
  match c with CallIsAvailable => true | _ => false end.

Definition is_init_call (c : Call) : bool :=
  match c with CallInit _ _ _ => true | _ => false end.

(** A reply of [init] that carries a handle. *)
Definition has_handle (r : Reply) : bool :=
  match handle_of r with Some _ => true | None => false end.

(** A [destroy] of the non-null handle [h]. *)
Definition destroys (h : ptr) (c : Call) : bool :=
  match c with
  | CallDestroy h' => negb (h' =? nullptr) && (h' =? h)
  | _ => false
  end.

(** How many elements of a list satisfy [p]. *)
Definition how_many {A : Type} (p : A -> bool) (l : list A) : nat :=
  List.length (filter p l).

(** * Proofs *)

(** ** The model on concrete runs *)

(** A healthy [init]: allocate, construct, compile against the workspace,
    free the payload, hand the handle out. *)
Example init_healthy :
  init (scripted healthy) {| workspace_ := 4096 |} a_context a_payload []
       0%nat =
    (Value 512, 4%nat,
     [EvAllocate 64; EvPlacementNew 512; EvCompileModel 144 64 512 64 4096;
      EvFree 128]).
Proof. reflexivity. Qed.

(** A payload that does not compile: the payload is freed, the handle is
    destroyed, the error is logged and returned. *)
Example init_bad_payload :
  init (scripted bad_payload) {| workspace_ := 4096 |} a_context a_payload []
       0%nat =
    (Failure InvalidArgument, 5%nat,
     [EvAllocate 64; EvPlacementNew 512; EvCompileModel 144 64 512 64 4096;
      EvFree 128; EvDestructor 512;
      EvLog LogError "XNNCompiler::compileModel failed: 0x%x"
            (ArgError InvalidArgument)]).
Proof. reflexivity. Qed.

(** The statics when the library does not initialise: the constructor
    returns at line 33 and the zeroed slot stays as it is. *)
Example load_unsupported_hardware :
  static_initialization (scripted unsupported_hardware) 0%nat =
    ({| cls := {| workspace_ := nullptr |};
        backend := {| name_ := "XnnpackBackend"; interface_ := addr_cls |};
        success_with_compiler := Ok |},
     2%nat,
     [EvXnnInitialize nullptr;
      EvLog LogError "Failed to initialize, XNNPACK status: 0x%x"
            (ArgStatus xnn_status_unsupported_hardware);
      EvRegisterBackend
        {| name_ := "XnnpackBackend"; interface_ := addr_cls |}]).
Proof. reflexivity. Qed.

(** A session: availability, init, an execute whose forward pass fails, and
    two destroys, the second on [nullptr]. *)
Example session_forward_fails :
  let env := scripted forward_fails in
  snd (fst (steps env (loaded env 0%nat)
              [CallIsAvailable; CallInit a_context a_payload [];
               CallExecute 5 512 6; CallDestroy 512; CallDestroy nullptr]))
    = [ReplyIsAvailable true; ReplyInit (Value 512); ReplyExecute Internal;
       ReplyDestroy; ReplyDestroy]
  /\ snd (steps env (loaded env 0%nat)
            [CallIsAvailable; CallInit a_context a_payload [];
             CallExecute 5 512 6; CallDestroy 512; CallDestroy nullptr])
    = [EvXnnInitialize 0; EvAllocate 64; EvPlacementNew 512;
       EvCompileModel 144 64 512 64 4096; EvFree 128;
       EvPrepareArgs 512 6; EvForward 512 5; EvPrintAvgOpTimings 512;
       EvDestructor 512].
Proof. split; reflexivity. Qed.

(** ** Equality tests *)

Lemma Error_eqb_eq (a b : Error) : Error_eqb a b = true <-> a = b.
Proof.
  split.
  - destruct a, b; simpl; intro H; solve [reflexivity | discriminate H].
  - intros <-. destruct a; reflexivity.
Qed.

Lemma Error_eqb_neq (a b : Error) : Error_eqb a b = false <-> a <> b.
Proof.
  rewrite <- Error_eqb_eq. destruct (Error_eqb a b); split; intro H;
    solve [reflexivity | discriminate H | congruence | now elim H].
Qed.

Lemma xnn_status_eqb_eq (a b : xnn_status) :
  xnn_status_eqb a b = true <-> a = b.
Proof.
  split.
  - destruct a, b; simpl; intro H; solve [reflexivity | discriminate H].
  - intros <-. destruct a; reflexivity.
Qed.

Lemma xnn_status_eqb_neq (a b : xnn_status) :
  xnn_status_eqb a b = false <-> a <> b.
Proof.
  rewrite <- xnn_status_eqb_eq. destruct (xnn_status_eqb a b); split; intro H;
    solve [reflexivity | discriminate H | congruence | now elim H].
Qed.

Lemma xnn_status_eqb_sym (a b : xnn_status) :
  xnn_status_eqb a b = xnn_status_eqb b a.
Proof. destruct a, b; reflexivity. Qed.

(** ** Counting *)

Lemma count_app (p : Event -> bool) (l1 l2 : list Event) :
  count p (l1 ++ l2) = (count p l1 + count p l2)%nat.
Proof. unfold count. now rewrite filter_app, length_app. Qed.

Lemma count_zero_Forall (p : Event -> bool) (l : list Event) :
  count p l = 0%nat <-> Forall (fun e => p e = false) l.
Proof.
  unfold count. induction l as [|e l IH]; simpl.
  - split; [constructor | reflexivity].
  - destruct (p e) eqn:E; simpl; split; intro H.
    + discriminate H.
    + inversion H; congruence.
    + constructor; [exact E | now apply IH].
    + inversion H; now apply IH.
Qed.

(** ** The three ways through [init] *)

Section InitPaths.
Context {X : Type} (env : Collaborators X).
Variables (self : XnnpackBackend) (context : BackendInitContext)
          (processed : ptr) (compile_specs : list CompileSpec) (x : X).

(** The arena answers [nullptr]: [init] returns at line 58. *)
Lemma init_allocation_failed :
  allocated env context x = nullptr ->
  init env self context processed compile_specs x =
    (Failure (alloc_failure env), after_allocate env context x,
     [EvAllocate (get_runtime_allocator context)]).
Proof.
  unfold after_allocate, allocated, init,
    ET_ALLOCATE_INSTANCE_OR_RETURN_ERROR, bind, call, ret.
  destruct (allocate env (get_runtime_allocator context) x) as [p y].
  simpl. intros ->. reflexivity.
Qed.

(** The handle is constructed and the workspace is absent: [init] returns
    at line 68. *)
Lemma init_workspace_absent :
  allocated env context x <> nullptr ->
  workspace_ self = nullptr ->
  init env self context processed compile_specs x =
    (Failure Internal, after_new env context x,
     [EvAllocate (get_runtime_allocator context);
      EvPlacementNew (allocated env context x);
      EvLog LogError "Failed to create XNN workspace" ArgNone]).
Proof.
  unfold after_new, after_allocate, allocated, init,
    ET_ALLOCATE_INSTANCE_OR_RETURN_ERROR, ET_CHECK_OR_RETURN_ERROR,
    ET_LOG, bind, call, call_void, ret.
  destruct (allocate env (get_runtime_allocator context) x) as [p y].
  simpl. intros Hp Hw. apply N.eqb_neq in Hp. rewrite Hp, Hw. reflexivity.
Qed.

(** The handle is constructed and the workspace is there: the compiler
    runs, the payload is freed, and the compiler's answer decides. *)
Lemma init_compiles :
  allocated env context x <> nullptr ->
  workspace_ self <> nullptr ->
  init env self context processed compile_specs x =
    let err := fst (compile_result env self context processed x) in
    let common :=
      [EvAllocate (get_runtime_allocator context);
       EvPlacementNew (allocated env context x);
       compile_event env self context processed x;
       EvFree processed] in
    if negb (Error_eqb err Ok) then
      (Failure err,
       XNNExecutor_delete env (allocated env context x)
         (after_free env self context processed x),
       common ++
       [EvDestructor (allocated env context x);
        EvLog LogError "XNNCompiler::compileModel failed: 0x%x"
              (ArgError err)])
    else
      (Value (allocated env context x),
       after_free env self context processed x,
       common).
Proof.
  unfold after_free, compile_result, compile_event, after_new,
    after_allocate, allocated, init,
    ET_ALLOCATE_INSTANCE_OR_RETURN_ERROR, ET_CHECK_OR_RETURN_ERROR,
    ET_LOG, bind, call, call_void, read, ret.
  destruct (allocate env (get_runtime_allocator context) x) as [p y].
  simpl. intros Hp Hw. apply N.eqb_neq in Hp, Hw. rewrite Hp, Hw. simpl.
  destruct (compileModel env _ _ p _ _ _) as [err z]. simpl.
  destruct (Error_eqb err Ok); reflexivity.
Qed.

(** [init] takes one of the three ways. *)
Lemma init_cases :
  (allocated env context x = nullptr)
  \/ (allocated env context x <> nullptr /\ workspace_ self = nullptr)
  \/ (allocated env context x <> nullptr /\ workspace_ self <> nullptr).
Proof.
  destruct (N.eq_dec (allocated env context x) nullptr) as [H|H];
    [now left | right].
  destruct (N.eq_dec (workspace_ self) nullptr) as [W|W];
    [left | right]; now split.
Qed.
End InitPaths.

(** ** Release of the processed payload *)

(** C1, as amended: an [init] call frees the payload at most once; exactly
    once when it reaches the compiler (the handle was allocated and the
    workspace is there), whatever the compiler answers; and not at all when
    the allocation of the handle fails. *)
Theorem init_frees_payload_once_when_compiling :
  forall (X : Type) (env : Collaborators X) (self : XnnpackBackend)
         (context : BackendInitContext) (processed : ptr)
         (compile_specs : list CompileSpec) (x : X),
    let n := count (is_free processed)
               (events (init env self context processed compile_specs x)) in
    (n <= 1)%nat
    /\ (allocated env context x = nullptr -> n = 0%nat)
    /\ (allocated env context x <> nullptr ->
        workspace_ self <> nullptr ->
        payload_released_once env self context processed compile_specs x).
Proof.
  intros X env self context processed compile_specs x n.
  assert (Hc : allocated env context x <> nullptr ->
               workspace_ self <> nullptr -> n = 1%nat).
  { intros Hp Hw. subst n.
    rewrite (init_compiles env self context processed compile_specs x Hp Hw).
    cbv zeta.
    destruct (negb (Error_eqb _ Ok)); unfold events, count; simpl;
      rewrite N.eqb_refl; reflexivity. }
  assert (Ha : allocated env context x = nullptr -> n = 0%nat).
  { intros Hp. subst n.
    now rewrite (init_allocation_failed env self context processed
                   compile_specs x Hp). }
  split; [|split].
  - destruct (init_cases env self context x) as [Hp|[[Hp Hw]|[Hp Hw]]].
    + rewrite (Ha Hp). lia.
    + subst n.
      rewrite (init_workspace_absent env self context processed
                 compile_specs x Hp Hw).
      unfold events, count; simpl. lia.
    + rewrite (Hc Hp Hw). lia.
  - exact Ha.
  - exact Hc.
Qed.

(** The amended statement at work: a healthy call frees the payload once. *)
Lemma init_frees_payload_once_witness :
  payload_released_once (scripted healthy) {| workspace_ := 4096 |}
    a_context a_payload [] 0%nat.
Proof.
  destruct (init_frees_payload_once_when_compiling nat (scripted healthy)
              {| workspace_ := 4096 |} a_context a_payload [] 0%nat)
    as (_ & _ & H).
  apply H; vm_compute; discriminate.
Defined.

(** C1 as stated fails: with an exhausted arena, [init] returns before it
    touches the payload, which is then not freed by the call. *)
Lemma init_arena_exhausted_keeps_payload :
  ~ payload_released_once (scripted arena_exhausted) {| workspace_ := 4096 |}
      a_context a_payload [] 0%nat.
Proof. vm_compute. discriminate. Qed.

(** ** Destruction of the handle on the failure paths of [init] *)

(** When the compiler fails, the handle constructed at line 65 is destroyed
    once before [init] returns (line 81). *)
Lemma init_compiler_failure_destroys_handle :
  forall (X : Type) (env : Collaborators X) (self : XnnpackBackend)
         (context : BackendInitContext) (processed : ptr)
         (compile_specs : list CompileSpec) (x : X),
    allocated env context x <> nullptr ->
    workspace_ self <> nullptr ->
    fst (compile_result env self context processed x) <> Ok ->
    let r := init env self context processed compile_specs x in
    result r = Failure (fst (compile_result env self context processed x))
    /\ count (is_placement_new (allocated env context x)) (events r) = 1%nat
    /\ count (is_destructor (allocated env context x)) (events r) = 1%nat.
Proof.
  intros X env self context processed compile_specs x Hp Hw He r. subst r.
  rewrite (init_compiles env self context processed compile_specs x Hp Hw).
  cbv zeta. apply Error_eqb_neq in He. rewrite He. simpl.
  unfold result, events, count, compile_event; simpl.
  rewrite N.eqb_refl. simpl. repeat split.
Qed.

(** When the workspace is absent, the handle is constructed at line 65 and
    [init] returns at line 68 without a call of its destructor. *)
Lemma init_workspace_absent_never_destroys :
  forall (X : Type) (env : Collaborators X) (self : XnnpackBackend)
         (context : BackendInitContext) (processed : ptr)
         (compile_specs : list CompileSpec) (x : X),
    allocated env context x <> nullptr ->
    workspace_ self = nullptr ->
    let r := init env self context processed compile_specs x in
    count (is_placement_new (allocated env context x)) (events r) = 1%nat
    /\ count (is_destructor (allocated env context x)) (events r) = 0%nat.
Proof.
  intros X env self context processed compile_specs x Hp Hw r. subst r.
  rewrite (init_workspace_absent env self context processed compile_specs x
             Hp Hw).
  unfold events, count; simpl. rewrite N.eqb_refl. split; reflexivity.
Qed.

(** C2, the code at the failing input: the library initialised but could not
    create a workspace when the statics were built; the arena then answers
    address 512 to [init].  The handle is constructed there, [init] fails
    with [Internal], and the destructor was not called: zero times, where
    the claim says once. *)
Theorem init_workspace_absent_leaks_handle :
  let env := scripted no_workspace in
  let p := loaded env 0%nat in
  let r := init env (cls (globals p)) a_context a_payload []
             (collaborators p) in
  workspace_ (cls (globals p)) = nullptr
  /\ result r = Failure Internal
  /\ count (is_placement_new 512) (events r) = 1%nat
  /\ count (is_destructor 512) (events r) = 0%nat.
Proof. vm_compute. repeat split. Qed.

(** ** [init] without a workspace *)

(** What [init] returns without a workspace, along both ways. *)
Lemma init_without_workspace_result :
  forall (X : Type) (env : Collaborators X) (self : XnnpackBackend)
         (context : BackendInitContext) (processed : ptr)
         (compile_specs : list CompileSpec) (x : X),
    workspace_ self = nullptr ->
    let r := init env self context processed compile_specs x in
    succeeded (result r) = false
    /\ count is_compile (events r) = 0%nat
    /\ (allocated env context x <> nullptr -> result r = Failure Internal)
    /\ (allocated env context x = nullptr ->
        result r = Failure (alloc_failure env)).
Proof.
  intros X env self context processed compile_specs x Hw r. subst r.
  destruct (N.eq_dec (allocated env context x) nullptr) as [Hp|Hp].
  - rewrite (init_allocation_failed env self context processed
               compile_specs x Hp).
    repeat split; try reflexivity. intros H; now elim H.
  - rewrite (init_workspace_absent env self context processed
               compile_specs x Hp Hw).
    repeat split; try reflexivity. intros H; now elim Hp.
Qed.

(** C3, as amended: on an adapter whose workspace is null, [init] never
    returns a handle and never calls the compiler; it fails with [Internal]
    when the storage of the handle was allocated, and with the allocation
    macro's error when it was not (the workspace is examined after the
    allocation). *)
Theorem init_without_workspace_fails :
  forall (X : Type) (env : Collaborators X) (self : XnnpackBackend)
         (context : BackendInitContext) (processed : ptr)
         (compile_specs : list CompileSpec) (x : X),
    workspace_ self = nullptr ->
    succeeded (result (init env self context processed compile_specs x))
      = false
    /\ compiler_not_called env self context processed compile_specs x
    /\ (allocated env context x <> nullptr ->
        fails_with_Internal env self context processed compile_specs x)
    /\ (allocated env context x = nullptr ->
        result (init env self context processed compile_specs x)
          = Failure (alloc_failure env)).
Proof.
  intros X env self context processed compile_specs x Hw.
  unfold compiler_not_called, fails_with_Internal.
  exact (init_without_workspace_result X env self context processed
           compile_specs x Hw).
Qed.

(** The amended statement at work: no workspace, the arena answers 512. *)
Lemma init_without_workspace_witness :
  fails_with_Internal (scripted no_workspace) {| workspace_ := nullptr |}
    a_context a_payload [] 0%nat.
Proof.
  destruct (init_without_workspace_fails nat (scripted no_workspace)
              {| workspace_ := nullptr |} a_context a_payload [] 0%nat
              eq_refl) as (_ & _ & H & _).
  apply H. vm_compute. discriminate.
Defined.

(** C3 as stated fails: no workspace and an exhausted arena; [init] returns
    the allocation error, not [Internal]. *)
Lemma init_without_workspace_arena_exhausted :
  workspace_ {| workspace_ := nullptr |} = nullptr
  /\ ~ fails_with_Internal (scripted no_workspace_arena_exhausted)
         {| workspace_ := nullptr |} a_context a_payload [] 0%nat.
Proof. split; [reflexivity | vm_compute; discriminate]. Qed.

(** ** The statics are not touched by the calls of the host *)

Section Frame.
Context {X : Type} (env : Collaborators X).

Lemma step_globals (p : Process) (c : Call) :
  globals (fst (fst (step env p c))) = globals p.
Proof.
  unfold step.
  destruct (invoke env (cls (globals p)) c (collaborators p)) as [[r x] e].
  reflexivity.
Qed.

Lemma steps_globals (cs : list Call) :
  forall p : Process, globals (fst (fst (steps env p cs))) = globals p.
Proof.
  induction cs as [|c cs IH]; intro p; simpl; [reflexivity|].
  destruct (step env p c) as [[p1 r] e1] eqn:E.
  specialize (IH p1). destruct (steps env p1 cs) as [[p2 rs] e2].
  simpl in *. rewrite IH.
  change p1 with (fst (fst (p1, r, e1))). rewrite <- E.
  apply step_globals.
Qed.
End Frame.

(** ** A workspace that could not be created stays absent *)

(** C4, as amended: when the creation of the workspace fails in the
    constructor, [workspace_] is null; it is still null after any sequence
    of calls, and every later [init] fails: with [Internal] when the storage
    of the handle was allocated, with the allocation macro's error when it
    was not.  No [init] returns a handle. *)
Theorem failed_workspace_creation_is_permanent :
  forall (X : Type) (env : Collaborators X) (slot : xnn_workspace_t) (x0 : X),
    fst (xnn_initialize env nullptr x0) = xnn_status_success ->
    fst (fst (xnn_create_workspace env slot
                (snd (xnn_initialize env nullptr x0))))
      <> xnn_status_success ->
    let self := result (XnnpackBackend_new env slot x0) in
    workspace_ self = nullptr
    /\ forall (b : Backend) (s : Error) (x : X) (cs : list Call),
         let p := fst (fst (steps env
                    {| globals := {| cls := self; backend := b;
                                     success_with_compiler := s |};
                       collaborators := x |} cs)) in
         workspace_ (cls (globals p)) = nullptr
         /\ forall (context : BackendInitContext) (processed : ptr)
                   (compile_specs : list CompileSpec),
              let r := init env (cls (globals p)) context processed
                         compile_specs (collaborators p) in
              succeeded (result r) = false
              /\ (allocated env context (collaborators p) <> nullptr ->
                  result r = Failure Internal)
              /\ (allocated env context (collaborators p) = nullptr ->
                  result r = Failure (alloc_failure env)).
Proof.
  intros X env slot x0 Hi Hc self.
  assert (Hw : workspace_ self = nullptr).
  { subst self. unfold XnnpackBackend_new, bind, call, ET_LOG, ret, result.
    destruct (xnn_initialize env nullptr x0) as [st x1]. simpl in *.
    subst st. simpl.
    destruct (xnn_create_workspace env slot x1) as [[st ws] x2]. simpl in *.
    apply xnn_status_eqb_neq in Hc. rewrite Hc. reflexivity. }
  split; [exact Hw|].
  intros b s x cs p.
  assert (Hg : workspace_ (cls (globals p)) = nullptr).
  { subst p. rewrite steps_globals. exact Hw. }
  split; [exact Hg|].
  intros context processed compile_specs r.
  destruct (init_without_workspace_result X env (cls (globals p)) context
              processed compile_specs (collaborators p) Hg)
    as (H1 & _ & H3 & H4).
  repeat split; assumption.
Qed.

(** The amended statement at work: the statics are built with a library
    that cannot create a workspace; after a failed [init] and an
    [is_available], [init] still fails with [Internal]. *)
Lemma failed_workspace_creation_witness :
  let env := scripted no_workspace in
  let p := fst (fst (steps env (loaded env 0%nat)
                   [CallInit a_context a_payload []; CallIsAvailable])) in
  workspace_ (cls (globals p)) = nullptr
  /\ result (init env (cls (globals p)) a_context a_payload []
               (collaborators p)) = Failure Internal.
Proof.
  destruct (failed_workspace_creation_is_permanent nat (scripted no_workspace)
              nullptr 0%nat eq_refl) as [_ H].
  - vm_compute. discriminate.
  - destruct (H {| name_ := "XnnpackBackend"; interface_ := addr_cls |} Ok
                3%nat [CallInit a_context a_payload []; CallIsAvailable])
      as [Hw Hi].
    split; [exact Hw|].
    destruct (Hi a_context a_payload []) as (_ & Hint & _).
    apply Hint. vm_compute. discriminate.
Defined.

(** C4 as stated fails: the creation of the workspace failed when the
    statics were built, and the arena is exhausted when [init] is called;
    [init] returns the allocation error, not [Internal]. *)
Lemma init_after_failed_workspace_creation_arena_exhausted :
  let env := scripted no_workspace_arena_exhausted in
  let p := loaded env 0%nat in
  workspace_ (cls (globals p)) = nullptr
  /\ ~ fails_with_Internal env (cls (globals p)) a_context a_payload []
         (collaborators p).
Proof. split; [reflexivity | vm_compute; discriminate]. Qed.

(** ** [execute] *)

(** C5: [execute] calls [prepare_args], then [forward], then
    [resize_outputs] on the handle.  The first error is returned as it is
    and nothing is called after it; when the first two succeed, the answer
    of [resize_outputs] is returned. *)
Theorem execute_three_steps_short_circuit :
  forall (X : Type) (env : Collaborators X) (self : XnnpackBackend)
         (context handle args : ptr) (x : X),
    let r1 := prepare_args env handle args x in
    let r2 := forward env handle context (snd r1) in
    let r3 := resize_outputs env handle args (snd r2) in
    (fst r1 <> Ok ->
     execute env self context handle args x =
       (fst r1, snd r1, [EvPrepareArgs handle args]))
    /\ (fst r1 = Ok -> fst r2 <> Ok ->
        execute env self context handle args x =
          (fst r2, snd r2,
           [EvPrepareArgs handle args; EvForward handle context]))
    /\ (fst r1 = Ok -> fst r2 = Ok ->
        execute env self context handle args x =
          (fst r3, snd r3,
           [EvPrepareArgs handle args; EvForward handle context;
            EvResizeOutputs handle args])).
Proof.
  intros X env self context handle args x r1 r2 r3. subst r3 r2 r1.
  unfold execute, bind, call, ret.
  destruct (prepare_args env handle args x) as [e1 x1];
    cbn [fst snd]; cbv beta iota zeta.
  destruct (Error_eqb e1 Ok) eqn:E1; cbn [negb]; cbv beta iota zeta.
  - apply Error_eqb_eq in E1. subst e1.
    destruct (forward env handle context x1) as [e2 x2];
      cbn [fst snd]; cbv beta iota zeta.
    destruct (Error_eqb e2 Ok) eqn:E2; cbn [negb]; cbv beta iota zeta.
    + apply Error_eqb_eq in E2. subst e2.
      destruct (resize_outputs env handle args x2) as [e3 x3].
      repeat split; intros; solve [congruence | reflexivity].
    + apply Error_eqb_neq in E2.
      repeat split; intros; solve [congruence | reflexivity].
  - apply Error_eqb_neq in E1.
    repeat split; intros; solve [congruence | reflexivity].
Qed.

(** A forward pass that fails with [Internal]: [execute] returns [Internal]
    and [resize_outputs] is not called. *)
Lemma execute_three_steps_witness :
  execute (scripted forward_fails) {| workspace_ := 4096 |} 5 512 6 0%nat =
    (Internal, 2%nat, [EvPrepareArgs 512 6; EvForward 512 5]).
Proof.
  destruct (execute_three_steps_short_circuit nat (scripted forward_fails)
              {| workspace_ := 4096 |} 5 512 6 0%nat) as (_ & H & _).
  apply H; [reflexivity | discriminate].
Defined.

(** ** [destroy] *)

(** C6: [destroy(nullptr)] makes no call at all and leaves the collaborators
    as they were.  On a non-null handle it runs the destructor of that
    handle, once, after the dump of the timings when profiling is compiled
    in.  That is all it does: the state it leaves is the one the destructor
    leaves, every call it makes goes to the handle object, and none goes to
    the allocator that owns the storage, which is therefore not freed. *)
Theorem destroy_null_noop_else_destructor_once :
  forall (X : Type) (env : Collaborators X) (self : XnnpackBackend) (x : X),
    destroy env self nullptr x = (tt, x, [])
    /\ forall handle : ptr,
         handle <> nullptr ->
         destroy env self handle x =
           (tt,
            XNNExecutor_delete env handle
              (if ENABLE_XNNPACK_PROFILING env
               then print_avg_op_timings env handle x else x),
            (if ENABLE_XNNPACK_PROFILING env
             then [EvPrintAvgOpTimings handle] else [])
            ++ [EvDestructor handle])
         /\ count (is_destructor handle)
                  (events (destroy env self handle x)) = 1%nat
         /\ Forall (fun e => e = EvPrintAvgOpTimings handle
                             \/ e = EvDestructor handle)
                   (events (destroy env self handle x)).
Proof.
  intros X env self x. split; [reflexivity|].
  intros handle Hh. apply N.eqb_neq in Hh.
  unfold destroy, bind, call_void, ret. rewrite Hh. cbn [negb].
  destruct (ENABLE_XNNPACK_PROFILING env); unfold events, count; simpl;
    rewrite N.eqb_refl; repeat split;
    repeat constructor; solve [now left | now right].
Qed.

(** Destroying the handle at 512 with profiling compiled in: the dump, then
    the destructor, each leaving its mark on the state. *)
Lemma destroy_witness :
  destroy (scripted forward_fails) {| workspace_ := 4096 |} 512 0%nat =
    (tt, 2%nat, [EvPrintAvgOpTimings 512; EvDestructor 512]).
Proof.
  destruct (destroy_null_noop_else_destructor_once nat
              (scripted forward_fails) {| workspace_ := 4096 |} 0%nat)
    as [_ H].
  destruct (H 512) as (Hd & _ & _); [discriminate | exact Hd].
Defined.

(** ** [is_available] *)

(** C7: when the initialisation of the library fails, [is_available]
    returns [false]; it is a total function whose only call is that
    initialisation. *)
Theorem is_available_false_when_initialize_fails :
  forall (X : Type) (env : Collaborators X) (self : XnnpackBackend) (x : X),
    fst (xnn_initialize env nullptr x) <> xnn_status_success ->
    is_available env self x =
      (false, snd (xnn_initialize env nullptr x), [EvXnnInitialize nullptr]).
Proof.
  intros X env self x H. unfold is_available, bind, call, ret.
  destruct (xnn_initialize env nullptr x) as [st x1].
  cbn [fst snd] in *. cbv beta iota zeta.
  apply xnn_status_eqb_neq in H. rewrite xnn_status_eqb_sym, H. reflexivity.
Qed.

(** On hardware that the library does not support. *)
Lemma is_available_false_witness :
  is_available (scripted unsupported_hardware) {| workspace_ := nullptr |}
    0%nat = (false, 1%nat, [EvXnnInitialize nullptr]).
Proof.
  apply (is_available_false_when_initialize_fails nat
           (scripted unsupported_hardware) {| workspace_ := nullptr |} 0%nat).
  vm_compute. discriminate.
Defined.

(** ** What the four methods may call *)

Section Calls.
Context {X : Type} (env : Collaborators X).

Lemma invoke_init (self : XnnpackBackend) (context : BackendInitContext)
    (processed : ptr) (compile_specs : list CompileSpec) (x : X) :
  invoke env self (CallInit context processed compile_specs) x =
    (ReplyInit (result (init env self context processed compile_specs x)),
     state (init env self context processed compile_specs x),
     events (init env self context processed compile_specs x)).
Proof.
  unfold invoke, bind, ret, result, state, events.
  destruct (init env self context processed compile_specs x) as [[r y] e].
  simpl. now rewrite app_nil_r.
Qed.

(** The events of [init] are calls a method may make, and a handle that
    comes out was compiled against the adapter's workspace. *)
Lemma init_events (self : XnnpackBackend) (context : BackendInitContext)
    (processed : ptr) (compile_specs : list CompileSpec) (x : X) :
  let r := init env self context processed compile_specs x in
  Forall (call_event (workspace_ self)) (events r)
  /\ forall h, result r = Value h ->
               bound_to (workspace_ self) h (events r).
Proof.
  intro r. subst r.
  destruct (init_cases env self context x) as [Hp|[[Hp Hw]|[Hp Hw]]].
  - rewrite (init_allocation_failed env self context processed
               compile_specs x Hp).
    split; [repeat constructor | discriminate].
  - rewrite (init_workspace_absent env self context processed
               compile_specs x Hp Hw).
    split; [repeat constructor | discriminate].
  - rewrite (init_compiles env self context processed compile_specs x
               Hp Hw).
    cbv zeta. destruct (negb (Error_eqb _ Ok)).
    + split; [repeat constructor | discriminate].
    + split; [repeat constructor|].
      unfold result, events. simpl. intros h [= <-].
      do 3 eexists. right. right. left. reflexivity.
Qed.

Lemma invoke_events (self : XnnpackBackend) (c : Call) (x : X) :
  Forall (call_event (workspace_ self)) (events (invoke env self c x)).
Proof.
  destruct c as [|context processed compile_specs|context handle args
                |handle].
  - unfold invoke, is_available, bind, call, ret, events.
    destruct (xnn_initialize env nullptr x) as [st y]. simpl.
    repeat constructor.
  - rewrite invoke_init. apply init_events.
  - unfold invoke, execute, bind, call, ret, events.
    destruct (prepare_args env handle args x) as [e1 x1].
    cbv beta iota zeta.
    destruct (negb (Error_eqb e1 Ok)); cbv beta iota zeta;
      [simpl; repeat constructor|].
    destruct (forward env handle context x1) as [e2 x2].
    cbv beta iota zeta.
    destruct (negb (Error_eqb e2 Ok)); cbv beta iota zeta;
      [simpl; repeat constructor|].
    destruct (resize_outputs env handle args x2) as [e3 x3].
    simpl. repeat constructor.
  - unfold invoke, destroy, bind, call_void, ret, events.
    destruct (negb (handle =? nullptr)); cbv beta iota zeta;
      [|simpl; constructor].
    destruct (ENABLE_XNNPACK_PROFILING env); simpl; repeat constructor.
Qed.

Lemma invoke_handle_bound (self : XnnpackBackend) (c : Call) (x : X)
    (h : ptr) :
  handle_of (result (invoke env self c x)) = Some h ->
  bound_to (workspace_ self) h (events (invoke env self c x)).
Proof.
  destruct c as [|context processed compile_specs|context handle args
                |handle].
  - unfold invoke, bind, ret, result.
    destruct (is_available env self x) as [[b y] e]. discriminate.
  - rewrite invoke_init. unfold result at 1, events at 1. simpl.
    destruct (result (init env self context processed compile_specs x))
      as [v|e] eqn:E; [|discriminate].
    intros [= <-]. now apply init_events.
  - unfold invoke, bind, ret, result.
    destruct (execute env self context handle args x) as [[b y] e].
    discriminate.
  - unfold invoke, bind, ret, result.
    destruct (destroy env self handle x) as [[b y] e]. discriminate.
Qed.

Lemma bound_to_app_l ws h l1 l2 :
  bound_to ws h l1 -> bound_to ws h (l1 ++ l2).
Proof.
  intros (d & s & a & H). exists d, s, a. apply in_or_app. now left.
Qed.

Lemma bound_to_app_r ws h l1 l2 :
  bound_to ws h l2 -> bound_to ws h (l1 ++ l2).
Proof.
  intros (d & s & a & H). exists d, s, a. apply in_or_app. now right.
Qed.

(** Any sequence of calls: every event is a call a method may make, and
    every handle handed out was compiled against the workspace of [cls]. *)
Lemma steps_events (cs : list Call) :
  forall p : Process,
    let ws := workspace_ (cls (globals p)) in
    Forall (call_event ws) (snd (steps env p cs))
    /\ Forall (fun r => forall h, handle_of r = Some h ->
                                  bound_to ws h (snd (steps env p cs)))
              (snd (fst (steps env p cs))).
Proof.
  induction cs as [|c cs IH]; intros p ws; simpl.
  - split; constructor.
  - pose proof (invoke_events (cls (globals p)) c (collaborators p)) as He.
    pose proof (invoke_handle_bound (cls (globals p)) c (collaborators p))
      as Hb.
    pose proof (step_globals env p c) as Hg.
    unfold step in *.
    destruct (invoke env (cls (globals p)) c (collaborators p))
      as [[r y] e1].
    unfold result, events in He, Hb. simpl in He, Hb, Hg.
    specialize (IH {| globals := globals p; collaborators := y |}).
    simpl in IH.
    destruct (steps env {| globals := globals p; collaborators := y |} cs)
      as [[p2 rs] e2].
    simpl in *. destruct IH as [IH1 IH2]. split.
    + apply Forall_app. split; assumption.
    + constructor.
      * intros h Hh. apply bound_to_app_l. now apply Hb.
      * eapply Forall_impl; [|exact IH2]. simpl.
        intros a Ha h Hh. apply bound_to_app_r. now apply Ha.
Qed.

Lemma call_event_not_load_time (ws : xnn_workspace_t) (l : list Event) :
  Forall (call_event ws) l -> count is_load_time l = 0%nat.
Proof.
  intro H. apply count_zero_Forall. eapply Forall_impl; [|exact H].
  intros [] Hc; simpl in *; solve [reflexivity | contradiction].
Qed.

Lemma call_event_not_create_workspace (ws : xnn_workspace_t)
    (l : list Event) :
  Forall (call_event ws) l -> count is_create_workspace l = 0%nat.
Proof.
  intro H. apply count_zero_Forall. eapply Forall_impl; [|exact H].
  intros [] Hc; simpl in *; solve [reflexivity | contradiction].
Qed.

(** The events of the constructor: one initialisation of the library
    first, no registration. *)
Lemma constructor_events (slot : xnn_workspace_t) (x : X) :
  count is_initialize (events (XnnpackBackend_new env slot x)) = 1%nat
  /\ count is_register (events (XnnpackBackend_new env slot x)) = 0%nat.
Proof.
  unfold XnnpackBackend_new, bind, call, ET_LOG, ret, events.
  destruct (xnn_initialize env nullptr x) as [st x1].
  cbv beta iota zeta.
  destruct (negb (xnn_status_eqb st xnn_status_success));
    cbv beta iota zeta; [split; reflexivity|].
  destruct (xnn_create_workspace env slot x1) as [[st2 ws] x2].
  cbv beta iota zeta.
  destruct (negb (xnn_status_eqb st2 xnn_status_success));
    split; reflexivity.
Qed.
End Calls.

(** ** The statics *)

(** C8: the static initialisers build one adapter and one record and
    register once.  They run the constructor once, on zeroed storage, then
    call [register_backend] on the record that binds the name
    "XnnpackBackend" to [cls], in the state the constructor left, and keep
    its answer in [success_with_compiler]; the statics and the state after
    load are exactly these.  Whatever the host calls afterwards, the statics
    stay as they were built and no call registers or builds anything
    again. *)
Theorem one_adapter_one_registration :
  forall (X : Type) (env : Collaborators X) (x : X),
    let r := static_initialization env x in
    let c := XnnpackBackend_new env nullptr x in
    let b := {| name_ := "XnnpackBackend"; interface_ := addr_cls |} in
    let g := register_backend env b (state c) in
    r = ({| cls := result c; backend := b;
            success_with_compiler := fst g |},
         snd g,
         events c ++ [EvRegisterBackend b])
    /\ cls (result r) = result (XnnpackBackend_new env nullptr x)
    /\ backend (result r) = b
    /\ events r =
         events (XnnpackBackend_new env nullptr x) ++ [EvRegisterBackend b]
    /\ count is_initialize (events r) = 1%nat
    /\ count is_register (events r) = 1%nat
    /\ forall cs : list Call,
         globals (fst (fst (steps env (loaded env x) cs))) = result r
         /\ count is_load_time (snd (steps env (loaded env x) cs)) = 0%nat.
Proof.
  intros X env x r c b g.
  pose proof (constructor_events env nullptr x) as [Hi Hr].
  assert (Hfull : r = ({| cls := result c; backend := b;
                          success_with_compiler := fst g |},
                       snd g, events c ++ [EvRegisterBackend b])).
  { subst r g c b.
    unfold static_initialization, bind, call, ret, result, state, events.
    destruct (XnnpackBackend_new env nullptr x) as [[a y] e].
    cbn [fst snd]. cbv beta iota zeta.
    destruct (register_backend env _ y) as [s z]. reflexivity. }
  assert (He : events r =
               events (XnnpackBackend_new env nullptr x)
               ++ [EvRegisterBackend b]).
  { rewrite Hfull. reflexivity. }
  repeat split.
  - exact Hfull.
  - rewrite Hfull. reflexivity.
  - rewrite Hfull. reflexivity.
  - exact He.
  - rewrite He, count_app, Hi. reflexivity.
  - rewrite He, count_app, Hr. reflexivity.
  - rewrite steps_globals. reflexivity.
  - eapply call_event_not_load_time. apply steps_events.
Qed.

(** ** The workspace *)

(** C9: no sequence of [is_available], [init], [execute] and [destroy]
    calls changes [workspace_] or creates a workspace; every call of the
    compiler is made against that one workspace, and so every handle that
    an [init] hands out is bound to it. *)
Theorem workspace_fixed_and_shared :
  forall (X : Type) (env : Collaborators X) (p : Process) (cs : list Call),
    let ws := workspace_ (cls (globals p)) in
    workspace_ (cls (globals (fst (fst (steps env p cs))))) = ws
    /\ count is_create_workspace (snd (steps env p cs)) = 0%nat
    /\ Forall (call_event ws) (snd (steps env p cs))
    /\ Forall (fun r => forall h, handle_of r = Some h ->
                                  bound_to ws h (snd (steps env p cs)))
              (snd (fst (steps env p cs))).
Proof.
  intros X env p cs ws.
  destruct (steps_events env cs p) as [He Hb].
  repeat split.
  - now rewrite steps_globals.
  - eapply call_event_not_create_workspace. exact He.
  - exact He.
  - exact Hb.
Qed.

(** Two [init] calls around an [execute]: the second handle is bound to the
    workspace created at load. *)
Lemma workspace_fixed_and_shared_witness :
  bound_to 4096 512
    (snd (steps (scripted healthy) (loaded (scripted healthy) 0%nat)
            [CallInit a_context a_payload []; CallExecute 5 512 6;
             CallInit a_context 256 []])).
Proof.
  destruct (workspace_fixed_and_shared nat (scripted healthy)
              (loaded (scripted healthy) 0%nat)
              [CallInit a_context a_payload []; CallExecute 5 512 6;
               CallInit a_context 256 []]) as (_ & _ & _ & H).
  apply (Forall_inv (Forall_inv_tail (Forall_inv_tail H))). reflexivity.
Defined.

(** ** Availability and the workspace *)


(** * Further properties of the class *)

(** ** The constructor *)

(** The three ways through the constructor. *)
Lemma constructor_cases :
  forall (X : Type) (env : Collaborators X) (slot : xnn_workspace_t) (x : X),
    let i := xnn_initialize env nullptr x in
    let c := xnn_create_workspace env slot (snd i) in
    XnnpackBackend_new env slot x =
      if negb (xnn_status_eqb (fst i) xnn_status_success) then
        ({| workspace_ := slot |}, snd i,
         [EvXnnInitialize nullptr;
          EvLog LogError "Failed to initialize, XNNPACK status: 0x%x"
                (ArgStatus (fst i))])
      else if negb (xnn_status_eqb (fst (fst c)) xnn_status_success) then
        ({| workspace_ := nullptr |}, snd c,
         [EvXnnInitialize nullptr; EvXnnCreateWorkspace;
          EvLog LogError
                "Failed to create XNN workspace, XNNPACK status: 0x%x"
                (ArgStatus (fst (fst c)))])
      else
        ({| workspace_ := snd (fst c) |}, snd c,
         [EvXnnInitialize nullptr; EvXnnCreateWorkspace;
          EvLog LogDebug "Created XNN workspace: %p"
                (ArgPtr (snd (fst c)))]).
Proof.
  intros X env slot x i c. subst c i.
  unfold XnnpackBackend_new, bind, call, ET_LOG, ret.
  destruct (xnn_initialize env nullptr x) as [st x1].
  cbn [fst snd]. cbv beta iota zeta.
  destruct (negb (xnn_status_eqb st xnn_status_success)); [reflexivity|].
  destruct (xnn_create_workspace env slot x1) as [[st2 ws] x2].
  cbn [fst snd]. cbv beta iota zeta.
  destruct (negb (xnn_status_eqb st2 xnn_status_success)); reflexivity.
Qed.

(** X1: when the library does not initialise at load, the constructor
    returns before it asks for a workspace: [xnn_create_workspace] is not
    called, [workspace_] of the static adapter is null, the adapter is
    registered all the same, and no later [init] returns a handle. *)
Theorem load_without_library_leaves_no_workspace :
  forall (X : Type) (env : Collaborators X) (x : X),
    fst (xnn_initialize env nullptr x) <> xnn_status_success ->
    count is_create_workspace (events (static_initialization env x)) = 0%nat
    /\ count is_register (events (static_initialization env x)) = 1%nat
    /\ workspace_ (cls (globals (loaded env x))) = nullptr
    /\ forall (cs : list Call) (context : BackendInitContext)
              (processed : ptr) (compile_specs : list CompileSpec),
         let p := fst (fst (steps env (loaded env x) cs)) in
         succeeded (result (init env (cls (globals p)) context processed
                              compile_specs (collaborators p))) = false.
Proof.
  intros X env x Hi. apply xnn_status_eqb_neq in Hi.
  pose proof (constructor_cases X env nullptr x) as Hc. cbv zeta in Hc.
  rewrite Hi in Hc. cbn [negb] in Hc.
  assert (Hs : static_initialization env x =
    let b := {| name_ := "XnnpackBackend"; interface_ := addr_cls |} in
    let i := xnn_initialize env nullptr x in
    ({| cls := {| workspace_ := nullptr |}; backend := b;
        success_with_compiler := fst (register_backend env b (snd i)) |},
     snd (register_backend env b (snd i)),
     [EvXnnInitialize nullptr;
      EvLog LogError "Failed to initialize, XNNPACK status: 0x%x"
            (ArgStatus (fst i));
      EvRegisterBackend b])).
  { unfold static_initialization, bind, call, ret. rewrite Hc.
    cbv beta iota zeta.
    destruct (register_backend env _ _) as [s z]. reflexivity. }
  cbv zeta in Hs.
  assert (Hw : workspace_ (cls (globals (loaded env x))) = nullptr).
  { unfold loaded. rewrite Hs. reflexivity. }
  repeat split.
  - rewrite Hs. reflexivity.
  - rewrite Hs. reflexivity.
  - exact Hw.
  - intros cs context processed compile_specs p.
    apply init_without_workspace_result. subst p.
    rewrite steps_globals. exact Hw.
Qed.

(** On hardware the library does not support. *)
Lemma load_without_library_witness :
  workspace_ (cls (globals (loaded (scripted unsupported_hardware) 0%nat)))
    = nullptr.
Proof.
  destruct (load_without_library_leaves_no_workspace nat
              (scripted unsupported_hardware) 0%nat) as (_ & _ & H & _).
  - vm_compute. discriminate.
  - exact H.
Defined.

(** X2: the static adapter has a workspace exactly when the library
    initialised, the creation of the workspace succeeded, and the address
    it wrote is not null. *)
Theorem loaded_workspace_present_iff :
  forall (X : Type) (env : Collaborators X) (x : X),
    let i := xnn_initialize env nullptr x in
    let c := xnn_create_workspace env nullptr (snd i) in
    workspace_ (cls (globals (loaded env x))) <> nullptr
    <-> (fst i = xnn_status_success
         /\ fst (fst c) = xnn_status_success
         /\ snd (fst c) <> nullptr).
Proof.
  intros X env x i c.
  assert (Hw : workspace_ (cls (globals (loaded env x))) =
               workspace_ (result (XnnpackBackend_new env nullptr x))).
  { unfold loaded, static_initialization, bind, call, ret, result.
    destruct (XnnpackBackend_new env nullptr x) as [[a y] e].
    cbv beta iota zeta.
    destruct (register_backend env _ y) as [s z]. reflexivity. }
  rewrite Hw. pose proof (constructor_cases X env nullptr x) as Hc.
  cbv zeta in Hc. rewrite Hc. subst c i.
  destruct (xnn_status_eqb (fst (xnn_initialize env nullptr x))
              xnn_status_success) eqn:E1; cbn [negb].
  - apply xnn_status_eqb_eq in E1.
    destruct (xnn_status_eqb
                (fst (fst (xnn_create_workspace env nullptr
                             (snd (xnn_initialize env nullptr x)))))
                xnn_status_success) eqn:E2; cbn [negb].
    + apply xnn_status_eqb_eq in E2. unfold result. cbn [fst workspace_].
      split; [intro H; repeat split; assumption | intros (_ & _ & H); exact H].
    + apply xnn_status_eqb_neq in E2. unfold result. cbn [fst workspace_].
      split; [intro H; now elim H | intros (_ & H & _); contradiction].
  - apply xnn_status_eqb_neq in E1. unfold result. cbn [fst workspace_].
    split; [intro H; now elim H | intros (H & _); contradiction].
Qed.

(** ** [init] *)

(** X3: [init] returns a handle exactly when the allocation answered an
    address, the adapter has a workspace and the compiler answered [Ok];
    the handle is then the address the allocator answered, and it is never
    null. *)
Theorem init_succeeds_iff :
  forall (X : Type) (env : Collaborators X) (self : XnnpackBackend)
         (context : BackendInitContext) (processed : ptr)
         (compile_specs : list CompileSpec) (x : X),
    let r := init env self context processed compile_specs x in
    (succeeded (result r) = true
     <-> (allocated env context x <> nullptr
          /\ workspace_ self <> nullptr
          /\ fst (compile_result env self context processed x) = Ok))
    /\ (forall h : ptr,
          result r = Value h ->
          h = allocated env context x /\ h <> nullptr).
Proof.
  intros X env self context processed compile_specs x r. subst r.
  destruct (init_cases env self context x) as [Hp|[[Hp Hw]|[Hp Hw]]].
  - rewrite (init_allocation_failed env self context processed
               compile_specs x Hp).
    split; [split|]; unfold result; cbn [fst succeeded].
    + discriminate.
    + intros (H & _). contradiction.
    + discriminate.
  - rewrite (init_workspace_absent env self context processed
               compile_specs x Hp Hw).
    split; [split|]; unfold result; cbn [fst succeeded].
    + discriminate.
    + intros (_ & H & _). contradiction.
    + discriminate.
  - rewrite (init_compiles env self context processed compile_specs x
               Hp Hw). cbv zeta.
    destruct (Error_eqb (fst (compile_result env self context processed x))
                Ok) eqn:E; cbn [negb].
    + apply Error_eqb_eq in E.
      split; [split|]; unfold result; cbn [fst succeeded].
      * intros _. repeat split; assumption.
      * reflexivity.
      * intros h [= <-]. split; [reflexivity | exact Hp].
    + apply Error_eqb_neq in E.
      split; [split|]; unfold result; cbn [fst succeeded].
      * discriminate.
      * intros (_ & _ & H). contradiction.
      * discriminate.
Qed.

(** The handle of a healthy [init] is the allocated address, 512. *)
Lemma init_succeeds_witness :
  512 = allocated (scripted healthy) a_context 0%nat /\ 512 <> nullptr.
Proof.
  destruct (init_succeeds_iff nat (scripted healthy) {| workspace_ := 4096 |}
              a_context a_payload [] 0%nat) as [_ H].
  apply H. reflexivity.
Defined.

(** X4: a failed [init] never carries [Ok]: the error is [Internal], the
    compiler's error (tested against [Ok] at line 78), or the allocation
    macro's error, provided that one is not [Ok]. *)
Theorem init_failure_is_not_Ok :
  forall (X : Type) (env : Collaborators X) (self : XnnpackBackend)
         (context : BackendInitContext) (processed : ptr)
         (compile_specs : list CompileSpec) (x : X) (e : Error),
    alloc_failure env <> Ok ->
    result (init env self context processed compile_specs x) = Failure e ->
    e <> Ok.
Proof.
  intros X env self context processed compile_specs x e Ha.
  destruct (init_cases env self context x) as [Hp|[[Hp Hw]|[Hp Hw]]].
  - rewrite (init_allocation_failed env self context processed
               compile_specs x Hp).
    unfold result; cbn [fst]. intros [= <-]. exact Ha.
  - rewrite (init_workspace_absent env self context processed
               compile_specs x Hp Hw).
    unfold result; cbn [fst]. intros [= <-]. discriminate.
  - rewrite (init_compiles env self context processed compile_specs x
               Hp Hw). cbv zeta.
    destruct (Error_eqb (fst (compile_result env self context processed x))
                Ok) eqn:E; cbn [negb]; unfold result; cbn [fst].
    + discriminate.
    + apply Error_eqb_neq in E. intros [= <-]. exact E.
Qed.

(** A payload that does not compile. *)
Lemma init_failure_is_not_Ok_witness :
  alloc_failure (scripted bad_payload) <> Ok
  /\ result (init (scripted bad_payload) {| workspace_ := 4096 |}
               a_context a_payload [] 0%nat) = Failure InvalidArgument
  /\ InvalidArgument <> Ok.
Proof.
  assert (Ha : alloc_failure (scripted bad_payload) <> Ok) by discriminate.
  split; [exact Ha|]. split; [reflexivity|].
  exact (init_failure_is_not_Ok nat (scripted bad_payload)
           {| workspace_ := 4096 |} a_context a_payload [] 0%nat
           InvalidArgument Ha eq_refl).
Defined.

(** X5: [init] and [destroy] pair up.  When [init] returns a handle and the
    host then destroys it, the two calls together construct the object at
    that address once, destroy it once, construction first, and free the
    payload once. *)
Theorem init_then_destroy_balanced :
  forall (X : Type) (env : Collaborators X) (self : XnnpackBackend)
         (context : BackendInitContext) (processed : ptr)
         (compile_specs : list CompileSpec) (x : X) (h : ptr),
    let i := init env self context processed compile_specs x in
    result i = Value h ->
    let d := destroy env self h (state i) in
    count (is_placement_new h) (events i ++ events d) = 1%nat
    /\ count (is_destructor h) (events i ++ events d) = 1%nat
    /\ count (is_free processed) (events i ++ events d) = 1%nat
    /\ count (is_destructor h) (events i) = 0%nat
    /\ count (is_placement_new h) (events d) = 0%nat.
Proof.
  intros X env self context processed compile_specs x h i. subst i.
  destruct (init_cases env self context x) as [Hp|[[Hp Hw]|[Hp Hw]]].
  - rewrite (init_allocation_failed env self context processed
               compile_specs x Hp). discriminate.
  - rewrite (init_workspace_absent env self context processed
               compile_specs x Hp Hw). discriminate.
  - rewrite (init_compiles env self context processed compile_specs x
               Hp Hw). cbv zeta.
    destruct (negb (Error_eqb _ Ok)); [discriminate|].
    unfold result at 1. cbn [fst]. intros [= <-].
    apply N.eqb_neq in Hp.
    unfold destroy, bind, call_void, ret, state, events, compile_event.
    rewrite Hp. cbn [negb fst snd].
    destruct (ENABLE_XNNPACK_PROFILING env); unfold count; simpl;
      rewrite !N.eqb_refl; repeat split.
Qed.

(** A healthy [init] followed by the [destroy] of its handle. *)
Lemma init_then_destroy_witness :
  let i := init (scripted healthy) {| workspace_ := 4096 |} a_context
             a_payload [] 0%nat in
  let d := destroy (scripted healthy) {| workspace_ := 4096 |} 512
             (state i) in
  count (is_destructor 512) (events i ++ events d) = 1%nat.
Proof.
  destruct (init_then_destroy_balanced nat (scripted healthy)
              {| workspace_ := 4096 |} a_context a_payload [] 0%nat 512
              eq_refl) as (_ & H & _).
  exact H.
Defined.

(** ** [execute] *)

(** X6: [execute] returns [Ok] exactly when [prepare_args], [forward] and
    [resize_outputs], each run in the state the previous one left, all
    answer [Ok]. *)
Theorem execute_Ok_iff :
  forall (X : Type) (env : Collaborators X) (self : XnnpackBackend)
         (context handle args : ptr) (x : X),
    let r1 := prepare_args env handle args x in
    let r2 := forward env handle context (snd r1) in
    let r3 := resize_outputs env handle args (snd r2) in
    result (execute env self context handle args x) = Ok
    <-> (fst r1 = Ok /\ fst r2 = Ok /\ fst r3 = Ok).
Proof.
  intros X env self context handle args x r1 r2 r3. subst r3 r2 r1.
  unfold execute, bind, call, ret, result.
  destruct (prepare_args env handle args x) as [e1 x1];
    cbn [fst snd]; cbv beta iota zeta.
  destruct (Error_eqb e1 Ok) eqn:E1; cbn [negb]; cbv beta iota zeta.
  - apply Error_eqb_eq in E1. subst e1.
    destruct (forward env handle context x1) as [e2 x2];
      cbn [fst snd]; cbv beta iota zeta.
    destruct (Error_eqb e2 Ok) eqn:E2; cbn [negb]; cbv beta iota zeta.
    + apply Error_eqb_eq in E2. subst e2.
      destruct (resize_outputs env handle args x2) as [e3 x3].
      cbn [fst snd]. split; [intro H; repeat split; exact H|].
      intros (_ & _ & H). exact H.
    + apply Error_eqb_neq in E2. cbn [fst]. split; [intro H; contradiction|].
      intros (_ & H & _). contradiction.
  - apply Error_eqb_neq in E1. cbn [fst]. split; [intro H; contradiction|].
    intros (H & _). contradiction.
Qed.

(** ** Sessions *)

Lemma how_many_cons {A : Type} (p : A -> bool) (a : A) (l : list A) :
  how_many p (a :: l) = ((if p a then 1 else 0) + how_many p l)%nat.
Proof. unfold how_many. simpl. destruct (p a); reflexivity. Qed.

Lemma count_zero_where (p q : Event -> bool) (l : list Event) :
  Forall (fun e => q e = true) l ->
  (forall e, q e = true -> p e = false) ->
  count p l = 0%nat.
Proof.
  intros H Hq. apply count_zero_Forall. eapply Forall_impl; [|exact H].
  exact Hq.
Qed.

Section Sessions.
Context {X : Type} (env : Collaborators X).

(** The first call of a session, then the rest. *)
Lemma steps_cons (p : Process) (c : Call) (cs : list Call) :
  let v := invoke env (cls (globals p)) c (collaborators p) in
  let rest := steps env {| globals := globals p; collaborators := state v |}
                cs in
  steps env p (c :: cs) =
    (fst (fst rest), result v :: snd (fst rest), events v ++ snd rest).
Proof.
  cbv zeta. simpl. unfold step, result, state, events.
  destruct (invoke env (cls (globals p)) c (collaborators p)) as [[r y] e].
  cbn [fst snd].
  destruct (steps env {| globals := globals p; collaborators := y |} cs)
    as [[p2 rs] e2].
  reflexivity.
Qed.

(** What one call adds to the tallies of a session. *)
Lemma invoke_tally (self : XnnpackBackend) (c : Call) (x : X) :
  let v := invoke env self c x in
  count is_compile (events v) = count is_release (events v)
  /\ count is_initialize (events v)
     = (if asks_availability c then 1 else 0)%nat
  /\ (workspace_ self <> nullptr ->
      (count is_construction (events v)
       + (if destroys_handle c then 1 else 0)
       = count is_destruction (events v)
         + (if has_handle (result v) then 1 else 0))%nat)
  /\ (workspace_ self = nullptr ->
      count is_compile (events v) = 0%nat
      /\ has_handle (result v) = false)
  /\ (is_init_call c = false ->
      count is_construction (events v) = 0%nat
      /\ count is_allocate (events v) = 0%nat
      /\ count is_compile (events v) = 0%nat
      /\ forall h, count (is_destructor h) (events v)
                   = (if destroys h c then 1 else 0)%nat).
Proof.
  cbv zeta.
  destruct c as [|context processed compile_specs|context handle args
                |handle].
  - unfold invoke, is_available, bind, call, ret, events, result.
    destruct (xnn_initialize env nullptr x) as [st y].
    cbn. repeat split; reflexivity.
  - rewrite invoke_init. unfold result at 1 2, events at 1 2 3 4 5 6.
    cbn [fst snd asks_availability destroys_handle is_init_call].
    destruct (init_cases env self context x) as [Hp|[[Hp Hw]|[Hp Hw]]].
    + rewrite (init_allocation_failed env self context processed
                 compile_specs x Hp).
      unfold result, events, count. cbn.
      repeat split; try reflexivity; discriminate.
    + rewrite (init_workspace_absent env self context processed
                 compile_specs x Hp Hw).
      unfold result, events, count. cbn.
      repeat split; try reflexivity; try discriminate;
        intros; contradiction.
    + rewrite (init_compiles env self context processed compile_specs x
                 Hp Hw). cbv zeta.
      destruct (negb (Error_eqb _ Ok));
        unfold result, events, count, compile_event; cbn;
        repeat split; try reflexivity; try discriminate;
        intros; contradiction.
  - unfold invoke, execute, bind, call, ret, events, result.
    destruct (prepare_args env handle args x) as [e1 x1].
    cbv beta iota zeta.
    destruct (negb (Error_eqb e1 Ok)); cbv beta iota zeta;
      [cbn; repeat split; reflexivity|].
    destruct (forward env handle context x1) as [e2 x2].
    cbv beta iota zeta.
    destruct (negb (Error_eqb e2 Ok)); cbv beta iota zeta;
      [cbn; repeat split; reflexivity|].
    destruct (resize_outputs env handle args x2) as [e3 x3].
    cbn. repeat split; reflexivity.
  - unfold invoke, destroy, bind, call_void, ret, events, result.
    cbn [destroys_handle destroys asks_availability is_init_call].
    destruct (handle =? nullptr) eqn:Hn; cbn [negb andb];
      cbv beta iota zeta.
    + cbn. repeat split; reflexivity.
    + destruct (ENABLE_XNNPACK_PROFILING env); unfold count; cbn;
        repeat split; try reflexivity;
        intros h; rewrite N.eqb_sym; destruct (h =? handle); reflexivity.
Qed.
End Sessions.

(** X7: in every session, on every adapter, the payloads freed are as many
    as the calls of the compiler: [init] frees a payload once each time it
    has compiled and at no other time, and no other method frees or
    compiles. *)
Theorem session_frees_match_compiles :
  forall (X : Type) (env : Collaborators X) (cs : list Call) (p : Process),
    count is_release (snd (steps env p cs))
    = count is_compile (snd (steps env p cs)).
Proof.
  intros X env cs. induction cs as [|c cs IH]; intro p; [reflexivity|].
  rewrite steps_cons. cbn [snd]. rewrite !count_app, IH.
  destruct (invoke_tally env (cls (globals p)) c (collaborators p))
    as (H & _).
  now rewrite H.
Qed.

(** X8: only [is_available] initialises the library again: in every
    session the calls of [xnn_initialize] are as many as the calls of
    [is_available]; [init], [execute] and [destroy] never make one. *)
Theorem session_initializes_once_per_is_available :
  forall (X : Type) (env : Collaborators X) (cs : list Call) (p : Process),
    count is_initialize (snd (steps env p cs))
    = how_many asks_availability cs.
Proof.
  intros X env cs. induction cs as [|c cs IH]; intro p; [reflexivity|].
  rewrite steps_cons. cbn [snd]. rewrite count_app, IH, how_many_cons.
  destruct (invoke_tally env (cls (globals p)) c (collaborators p))
    as (_ & H & _).
  now rewrite H.
Qed.

(** X9: on an adapter that has a workspace no handle is lost: in every
    session, the objects constructed plus the [destroy] calls on non-null
    handles are as many as the destructor calls plus the handles handed
    out.  Every object [init] constructs is either handed to the host or
    destroyed by [init] itself, and every [destroy] of a non-null handle
    runs one destructor. *)
Theorem session_handles_balanced :
  forall (X : Type) (env : Collaborators X) (cs : list Call) (p : Process),
    workspace_ (cls (globals p)) <> nullptr ->
    (count is_construction (snd (steps env p cs))
     + how_many destroys_handle cs
     = count is_destruction (snd (steps env p cs))
       + how_many has_handle (snd (fst (steps env p cs))))%nat.
Proof.
  intros X env cs. induction cs as [|c cs IH]; intros p Hw; [reflexivity|].
  rewrite steps_cons. cbn [fst snd].
  rewrite !count_app, !how_many_cons.
  destruct (invoke_tally env (cls (globals p)) c (collaborators p))
    as (_ & _ & H & _).
  specialize (H Hw).
  specialize (IH {| globals := globals p;
                    collaborators :=
                      state (invoke env (cls (globals p)) c
                               (collaborators p)) |} Hw).
  lia.
Qed.

(** A session with an [init], an [execute] and two [destroy] calls, one of
    them on [nullptr]. *)
Lemma session_handles_balanced_witness :
  let env := scripted healthy in
  let cs := [CallInit a_context a_payload []; CallExecute 5 512 6;
             CallDestroy nullptr; CallDestroy 512] in
  (count is_construction (snd (steps env (loaded env 0%nat) cs))
   + how_many destroys_handle cs
   = count is_destruction (snd (steps env (loaded env 0%nat) cs))
     + how_many has_handle (snd (fst (steps env (loaded env 0%nat) cs))))%nat.
Proof.
  apply (session_handles_balanced nat (scripted healthy)
           [CallInit a_context a_payload []; CallExecute 5 512 6;
            CallDestroy nullptr; CallDestroy 512]
           (loaded (scripted healthy) 0%nat)).
  vm_compute. discriminate.
Defined.

(** X10: on an adapter without a workspace, no session ever reaches the
    compiler, frees a payload or obtains a handle. *)
Theorem session_without_workspace_is_inert :
  forall (X : Type) (env : Collaborators X) (cs : list Call) (p : Process),
    workspace_ (cls (globals p)) = nullptr ->
    count is_compile (snd (steps env p cs)) = 0%nat
    /\ count is_release (snd (steps env p cs)) = 0%nat
    /\ how_many has_handle (snd (fst (steps env p cs))) = 0%nat.
Proof.
  intros X env cs. induction cs as [|c cs IH]; intros p Hw;
    [repeat split|].
  rewrite steps_cons. cbn [fst snd].
  rewrite !count_app, !how_many_cons.
  destruct (invoke_tally env (cls (globals p)) c (collaborators p))
    as (Hr & _ & _ & H & _).
  destruct (H Hw) as [Hc Hh]. rewrite <- Hr, Hc, Hh.
  exact (IH {| globals := globals p;
               collaborators :=
                 state (invoke env (cls (globals p)) c
                          (collaborators p)) |} Hw).
Qed.

(** A session on the adapter built by a library that cannot create a
    workspace. *)
Lemma session_without_workspace_witness :
  let env := scripted no_workspace in
  how_many has_handle
    (snd (fst (steps env (loaded env 0%nat)
                 [CallInit a_context a_payload []; CallIsAvailable;
                  CallInit a_context 256 []]))) = 0%nat.
Proof.
  destruct (session_without_workspace_is_inert nat (scripted no_workspace)
              [CallInit a_context a_payload []; CallIsAvailable;
               CallInit a_context 256 []]
              (loaded (scripted no_workspace) 0%nat) eq_refl)
    as (_ & _ & H).
  exact H.
Defined.

(** X11: [destroy] keeps no record of what it destroyed, and [execute] and
    [is_available] destroy nothing.  In a session without [init], the
    destructor runs on a handle once for every [destroy] call on that
    (non-null) handle: twice when the host destroys it twice; and nothing
    is allocated, constructed or compiled. *)
Theorem session_destructor_once_per_destroy :
  forall (X : Type) (env : Collaborators X) (cs : list Call) (p : Process)
         (h : ptr),
    Forall (fun c => is_init_call c = false) cs ->
    count (is_destructor h) (snd (steps env p cs)) = how_many (destroys h) cs
    /\ count is_construction (snd (steps env p cs)) = 0%nat
    /\ count is_allocate (snd (steps env p cs)) = 0%nat
    /\ count is_compile (snd (steps env p cs)) = 0%nat.
Proof.
  intros X env cs. induction cs as [|c cs IH]; intros p h Hcs;
    [repeat split|].
  inversion Hcs as [|c' cs' Hc Hrest]; subst.
  rewrite steps_cons. cbn [fst snd].
  rewrite !count_app, !how_many_cons.
  destruct (invoke_tally env (cls (globals p)) c (collaborators p))
    as (_ & _ & _ & _ & H).
  destruct (H Hc) as (H1 & H2 & H3 & H4).
  destruct (IH {| globals := globals p;
                  collaborators :=
                    state (invoke env (cls (globals p)) c
                             (collaborators p)) |} h Hrest)
    as (I1 & I2 & I3 & I4).
  rewrite H1, H2, H3, H4, I1, I2, I3, I4. repeat split.
Qed.

(** The host destroys the handle at 512 twice, with an [execute] and a
    [destroy(nullptr)] in between: two destructor calls. *)
Lemma session_double_destroy_witness :
  let env := scripted healthy in
  count (is_destructor 512)
    (snd (steps env (loaded env 0%nat)
            [CallDestroy 512; CallExecute 5 512 6; CallDestroy nullptr;
             CallDestroy 512])) = 2%nat.
Proof.
  destruct (session_destructor_once_per_destroy nat (scripted healthy)
              [CallDestroy 512; CallExecute 5 512 6; CallDestroy nullptr;
               CallDestroy 512]
              (loaded (scripted healthy) 0%nat) 512) as (H & _).
  - repeat constructor.
  - exact H.
Defined.

(** A handle that a call hands out is not null and was constructed by that
    call. *)
Lemma invoke_handle_constructed :
  forall (X : Type) (env : Collaborators X) (self : XnnpackBackend)
         (c : Call) (x : X) (h : ptr),
    handle_of (result (invoke env self c x)) = Some h ->
    h <> nullptr /\ In (EvPlacementNew h) (events (invoke env self c x)).
Proof.
  intros X env self c x h.
  destruct c as [|context processed compile_specs|context handle args
                |handle].
  - unfold invoke, bind, ret, result.
    destruct (is_available env self x) as [[b y] e]. discriminate.
  - rewrite invoke_init. unfold result at 1, events at 1. cbn [fst snd].
    destruct (init_cases env self context x) as [Hp|[[Hp Hw]|[Hp Hw]]].
    + rewrite (init_allocation_failed env self context processed
                 compile_specs x Hp). discriminate.
    + rewrite (init_workspace_absent env self context processed
                 compile_specs x Hp Hw). discriminate.
    + rewrite (init_compiles env self context processed compile_specs x
                 Hp Hw). cbv zeta.
      destruct (negb (Error_eqb _ Ok)); [discriminate|].
      unfold result, events. cbn [fst snd handle_of]. intros [= <-].
      split; [exact Hp | right; left; reflexivity].
  - unfold invoke, bind, ret, result.
    destruct (execute env self context handle args x) as [[b y] e].
    discriminate.
  - unfold invoke, bind, ret, result.
    destruct (destroy env self handle x) as [[b y] e]. discriminate.
Qed.

(** X12: every handle that a session hands out is non-null and was
    constructed by placement new during that session, so a later [destroy]
    of it goes past the null test. *)
Theorem session_handles_are_constructed :
  forall (X : Type) (env : Collaborators X) (cs : list Call) (p : Process),
    Forall (fun r => forall h, handle_of r = Some h ->
                       h <> nullptr
                       /\ In (EvPlacementNew h) (snd (steps env p cs)))
           (snd (fst (steps env p cs))).
Proof.
  intros X env cs. induction cs as [|c cs IH]; intro p; [constructor|].
  rewrite steps_cons. cbn [fst snd]. constructor.
  - intros h Hh.
    destruct (invoke_handle_constructed X env (cls (globals p)) c
                (collaborators p) h Hh) as [Hn Hi].
    split; [exact Hn | apply in_or_app; now left].
  - eapply Forall_impl; [|apply IH]. cbv beta.
    intros r Hr h Hh. destruct (Hr h Hh) as [Hn Hi].
    split; [exact Hn | apply in_or_app; now right].
Qed.

(** The handle of the second [init] of a session. *)
Lemma session_handles_are_constructed_witness :
  512 <> nullptr
  /\ In (EvPlacementNew 512)
        (snd (steps (scripted healthy) (loaded (scripted healthy) 0%nat)
                [CallIsAvailable; CallInit a_context a_payload []])).
Proof.
  apply (Forall_inv (Forall_inv_tail
           (session_handles_are_constructed nat (scripted healthy)
              [CallIsAvailable; CallInit a_context a_payload []]
              (loaded (scripted healthy) 0%nat)))).
  reflexivity.
Defined.
